(** * R3KON GPT: the chat pipeline of [main.py]

    A shallow embedding of [generate_response] and of the [/api/chat]
    handler of [main.py], together with the pieces of Python they rely on
    ([str.strip], [str.split], [str.join], the three regular-expression
    calls, [dict.get], true division), of [load_model] and [status], and
    of the memory that [sendMessage] keeps in the page's script.

    Python strings are sequences of Unicode code points, so a string is a
    list of code points here (the reply filter looks at the block
    U+4E00..U+9FFF, which does not fit in one byte). *)

From Stdlib Require Import ZArith NArith List Lia QArith.
From Stdlib Require Import Strings.String Strings.Ascii.
From Stdlib Require Import Floats.PrimFloat Numbers.Cyclic.Int63.Uint63.
From stdpp Require Import gmap strings list.

Set Default Proof Using "Type".
Local Set Warnings "-inexact-float,-register-all".

(** ** Python strings *)

Abbreviation pystr := (list N).

(** An ASCII literal of the source as a list of code points. *)
Definition py (s : string) : pystr :=
  map N_of_ascii (list_ascii_of_string s).

Module Py.

Definition NL : N := 10.     (* '\n' *)
Definition SPACE : N := 32.  (* ' ' *)

(** [str.isspace] on one character, as CPython's [_PyUnicode_IsWhitespace]
    decides it; [str.strip()] without argument removes these. *)
Definition isspace (c : N) : bool :=
  (((9 <=? c) && (c <=? 13)) || ((28 <=? c) && (c <=? 32))
   || (c =? 133) || (c =? 160) || (c =? 5760)
   || ((8192 <=? c) && (c <=? 8202))
   || (c =? 8232) || (c =? 8233) || (c =? 8239) || (c =? 8287)
   || (c =? 12288))%N.

Fixpoint lstrip (s : pystr) : pystr :=
  match s with
  | [] => []
  | c :: s' => if isspace c then lstrip s' else s
  end.

Definition rstrip (s : pystr) : pystr := reverse (lstrip (reverse s)).

(** [s.strip()] *)
Definition strip (s : pystr) : pystr := rstrip (lstrip s).

(** A string [s.strip()] empties: whitespace only. *)
Definition blank (s : pystr) : Prop := Forall (fun c => isspace c = true) s.

(** [s.replace(c, '')] for a one-character [c] *)
Definition replace_char (c : N) (s : pystr) : pystr :=
  List.filter (fun x => negb (x =? c)%N) s.

(** [s.split('\n')]: never the empty list, [''.split('\n') == ['']]. *)
Fixpoint split_nl (s : pystr) : list pystr :=
  match s with
  | [] => [[]]
  | c :: s' =>
      if (c =? NL)%N then [] :: split_nl s'
      else match split_nl s' with
           | l :: ls => (c :: l) :: ls
           | [] => [[c]]
           end
  end.

(** ['\n'.join(parts)] *)
Fixpoint join_nl (parts : list pystr) : pystr :=
  match parts with
  | [] => []
  | [p] => p
  | p :: rest => p ++ NL :: join_nl rest
  end.

(** [l[-n:]] for [n > 0]: the whole list when it has at most [n] items. *)
Definition last_n {A} (n : nat) (l : list A) : list A :=
  drop (length l - n) l.

End Py.

(** ** The reply filter of [generate_response] (lines 135 to 158) *)

(** The block the regular expressions name, [\u4e00-\u9fff]. *)
Definition is_cjk (c : N) : bool := ((0x4e00 <=? c) && (c <=? 0x9fff))%N.

Definition no_cjk (s : pystr) : Prop := Forall (fun c => is_cjk c = false) s.

(** [re.findall(r'[\u4e00-\u9fff]', s)]: one match per character of the
    block. *)
Definition findall_cjk (s : pystr) : list pystr :=
  map (fun c => [c]) (List.filter is_cjk s).

(** [re.sub(r'[\u4e00-\u9fff]+', '', s)]: every run of the block is
    deleted, which deletes every character of the block. *)
Definition sub_cjk (s : pystr) : pystr :=
  List.filter (fun c => negb (is_cjk c)) s.

(** [re.sub(r'\n\n+', '\n\n', s)]: a maximal run of two or more newlines
    becomes two newlines. [run] is the number of newlines of the current
    run already written. *)
Fixpoint sub_newlines_from (run : nat) (s : pystr) : pystr :=
  match s with
  | [] => []
  | c :: s' =>
      if (c =? Py.NL)%N then
        if (run <? 2)%nat then c :: sub_newlines_from (S run) s'
        else sub_newlines_from run s'
      else c :: sub_newlines_from 0 s'
  end.

Definition sub_newlines (s : pystr) : pystr := sub_newlines_from 0 s.

(** Exceptions: a computation returns a value or raises, and [Raise e]
    carries [str(e)]. *)
Inductive result (A : Type) : Type :=
| Ok (a : A)
| Raise (e : pystr).
Arguments Ok {A} a.
Arguments Raise {A} e.

Definition bind {A B} (m : result A) (k : A -> result B) : result B :=
  match m with
  | Ok a => k a
  | Raise e => Raise e
  end.

Notation "'let*' x ':=' m 'in' k" := (bind m (fun x => k))
  (at level 10, x name, m at level 100, k at level 200).

(** [a / b] on two [int]s: the exact quotient, correctly rounded to a
    binary64 by CPython; [ZeroDivisionError] when [b] is 0. The quotient
    is kept exact here and the rounding is done where it is compared. *)
Definition truediv (a b : Z) : result Q :=
  if (b =? 0)%Z then Raise (py "division by zero")
  else Ok (a # Z.to_pos b).

(** [q > 0.3] for the binary64 nearest to a quotient [q] of two ints. The
    literal [0.3] is the binary64 5404319552844595 / 2^54 (a little below
    3/10). Rounding to nearest, ties to even, sends [q] above it exactly
    when [q] is at least the midpoint 10808639105689191 / 2^55 between
    that binary64 and the next one, whose significand is even. *)
Definition gt_03 (q : Q) : bool :=
  (10808639105689191 * Z.pos (Qden q) <=? Qnum q * 2 ^ 55)%Z.

Definition APOLOGY : pystr :=
  py "I apologize, but I can only respond in English.".

Definition REPHRASE : pystr :=
  py "I encountered an issue. Please try rephrasing your question.".

(** The two counts of lines 138 and 139. *)
Definition chinese_chars (bot_reply : pystr) : nat :=
  length (findall_cjk bot_reply).

Definition total_chars (bot_reply : pystr) : nat :=
  length (Py.replace_char Py.NL (Py.replace_char Py.SPACE bot_reply)).

(** Lines 144 and 145, the [else] branch. *)
Definition strip_and_clean (bot_reply : pystr) : pystr :=
  let bot_reply := sub_cjk bot_reply in
  Py.strip (sub_newlines bot_reply).

(** Lines 137 to 145, [# Filter Chinese]. The [and] of line 141 divides
    only when [total_chars > 0]. *)
Definition filter_chinese (bot_reply : pystr) : result pystr :=
  let chinese_chars := chinese_chars bot_reply in
  let total_chars := total_chars bot_reply in
  let* over :=
    (if (0 <? total_chars)%nat
     then let* q := truediv (Z.of_nat chinese_chars) (Z.of_nat total_chars) in
          Ok (gt_03 q)
     else Ok false) in
  Ok (if over : bool then APOLOGY else strip_and_clean bot_reply).

(** Lines 147 to 152, [# Remove repetition]: one turn of the loop. *)
Definition keep_line (unique_lines : list pystr) (line : pystr) : bool :=
  negb (bool_decide (Py.strip line = []))
  && (bool_decide (unique_lines = [])
      || negb (bool_decide (line ∈ Py.last_n 2 unique_lines))).

Definition remove_repetition_step (unique_lines : list pystr) (line : pystr)
  : list pystr :=
  if keep_line unique_lines line then unique_lines ++ [line]
  else unique_lines.

Definition remove_repetition (lines : list pystr) : list pystr :=
  fold_left remove_repetition_step lines [].

(** Lines 156 and 157. *)
Definition rephrase_if_short (bot_reply : pystr) : pystr :=
  if (length bot_reply <? 10)%nat then REPHRASE else bot_reply.

(** Lines 148 to 154: split, loop, join. *)
Definition rejoin_unique (bot_reply : pystr) : pystr :=
  let lines := Py.split_nl bot_reply in
  let unique_lines := remove_repetition lines in
  Py.join_nl unique_lines.

(** Lines 135 to 158: from the engine's text to the reply. *)
Definition sanitize (text : pystr) : result pystr :=
  let bot_reply := Py.strip text in
  let* bot_reply := filter_chinese bot_reply in
  let bot_reply := rejoin_unique bot_reply in
  Ok (rephrase_if_short bot_reply).

(** ** Request data *)

(** A value decoded from the JSON body of a request. *)
Inductive json : Type :=
| JNull                                 (* None *)
| JBool (b : bool)
| JNum (n : Z)                         (* an int; a float acts alike below *)
| JStr (s : pystr)
| JArr (items : list json)              (* a Python list *)
| JObj (fields : list (pystr * json)).  (* a Python dict *)

(** The truth value Python gives to a decoded value ([if v:]). *)
Definition truthy (v : json) : bool :=
  match v with
  | JNull => false
  | JBool b => b
  | JNum n => negb (n =? 0)%Z
  | JStr s => negb (bool_decide (s = []))
  | JArr items => negb (bool_decide (items = []))
  | JObj fields => negb (bool_decide (fields = []))
  end.

(** One entry of [history]: [{user, assistant}]. *)
Record Turn : Type := mkTurn { user : pystr; assistant : pystr }.

(** The body of [POST /api/chat], a JSON object whose three fields have
    the shapes the page sends: a string, a dict and a list of turns. A
    field is [None] when its key is absent from the body. *)
Record ChatBody : Type := mkChatBody {
  body_message : option pystr;
  body_config : option (gmap pystr json);
  body_history : option (list Turn)
}.

(** [d.get(key)] and [d.get(key, dflt)] on a dict with string keys. *)
Definition dict_get {V} (d : gmap pystr V) (key : pystr) : option V := d !! key.

Definition dict_get_default {V} (d : gmap pystr V) (key : pystr) (dflt : V) : V :=
  default dflt (d !! key).

(** ** Context assembly and token budget (lines 102 to 118) *)

Definition SYSTEM_PROMPT : pystr := py
"You are R3KON GPT, a professional cybersecurity assistant.
CRITICAL RULES:
1. ALWAYS respond in English only. Never use Chinese or any other language.
2. Stay strictly on topic related to cybersecurity, programming, or the user's question.
3. Keep responses clear, concise, and professional.
4. Use structured formatting: bullet points, numbered lists, or paragraphs as appropriate.
5. Never repeat yourself or generate repetitive content.
6. If asked something off-topic, politely redirect to cybersecurity topics.
".

Definition TRANSCRIPT_HEADER : pystr :=
  Py.NL :: py "--- Recent Conversation ---".

(** The two parts the loop of lines 107 to 109 appends for one turn. *)
Definition render_turn (turn : Turn) : list pystr :=
  [py "User: " ++ user turn; py "Assistant: " ++ assistant turn].

(** [config.get('sessionMemory') and history] as a condition: [None] (the
    key is absent) is false, and a list is true when it is not empty. *)
Definition uses_history (config : gmap pystr json) (history : list Turn) : bool :=
  match dict_get config (py "sessionMemory") with
  | Some v => truthy v && negb (bool_decide (history = []))
  | None => false
  end.

(** Lines 103 to 112. *)
Definition context_parts (prompt : pystr) (config : gmap pystr json)
    (history : list Turn) : list pystr :=
  [SYSTEM_PROMPT]
  ++ (if uses_history config history
      then TRANSCRIPT_HEADER :: concat (map render_turn (Py.last_n 5 history))
      else [])
  ++ [Py.NL :: py "User: " ++ prompt; py "Assistant:"].

(** Line 114. *)
Definition full_prompt (prompt : pystr) (config : gmap pystr json)
    (history : list Turn) : pystr :=
  Py.join_nl (context_parts prompt config history).

Definition token_limits : gmap pystr Z :=
  {[ py "short" := 300%Z; py "medium" := 600%Z; py "long" := 1000%Z ]}.

(** The decoded values Python can hash: all but lists and dicts. *)
Definition hashable (v : json) : bool :=
  match v with
  | JArr _ | JObj _ => false
  | JNull | JBool _ | JNum _ | JStr _ => true
  end.

(** [token_limits.get(key, dflt)] where [key] is any decoded value. The
    dict hashes the key first: a list or a dict is unhashable and the call
    raises [TypeError] (whose text below is that of CPython up to 3.13);
    [None], a bool or a number is hashable and equal to none of the
    string keys. *)
Definition dict_get_json (d : gmap pystr Z) (key : json) (dflt : Z) : result Z :=
  match key with
  | JStr s => Ok (dict_get_default d s dflt)
  | JArr _ => Raise (py "unhashable type: 'list'")
  | JObj _ => Raise (py "unhashable type: 'dict'")
  | JNull | JBool _ | JNum _ => Ok dflt
  end.

(** Line 118. *)
Definition max_tokens (config : gmap pystr json) : result Z :=
  dict_get_json token_limits
    (dict_get_default config (py "responseLength") (JStr (py "medium"))) 600%Z.

(** ** The engine, [generate_response] and the [/api/chat] handler *)

(** One call [llm(full_prompt, max_tokens=..., ...)]; the other arguments
    of the call are constants. *)
Record Call : Type := mkCall { call_prompt : pystr; call_max_tokens : Z }.

(** What [jsonify] is given: [{"response": text}] or [{"error": text}]. *)
Inductive Reply : Type :=
| Response (text : pystr)
| Error (text : pystr).

Record HttpResponse : Type := mkHttp { status : Z; payload : Reply }.

Section Server.

(** The global [model_loaded], written once by [load_model]. *)
Variable model_loaded : bool.

(** The engine: what [llm(...)] followed by
    [response["choices"][0]["text"]] gives for a prompt and a budget,
    the text or an exception. The handlers below report the calls they
    make to it next to their result. *)
Variable llm : pystr -> Z -> result pystr.

(** Lines 97 to 163. The context and the budget are computed outside the
    [try], so what they raise leaves the function; what the engine call
    or the reply filter raises is caught at line 161. *)
Definition generate_response (prompt : pystr) (config : gmap pystr json)
    (history : list Turn) : list Call * result Reply :=
  if negb model_loaded then ([], Ok (Error (py "Model not loaded")))
  else
    let full_prompt := full_prompt prompt config history in
    match max_tokens config with
    | Raise e => ([], Raise e)
    | Ok max_tokens =>
        ([mkCall full_prompt max_tokens],
         Ok (match (let* text := llm full_prompt max_tokens in sanitize text) with
             | Ok bot_reply => Response bot_reply
             | Raise e => Error e
             end))
    end.

(** Lines 809 to 828. [jsonify(result)] alone answers with status 200. *)
Definition chat (data : ChatBody) : list Call * HttpResponse :=
  if negb model_loaded then ([], mkHttp 500 (Error (py "Model not loaded")))
  else
    let message := default [] (body_message data) in
    let config := default ∅ (body_config data) in
    let history := default [] (body_history data) in
    if bool_decide (message = []) then ([], mkHttp 400 (Error (py "No message")))
    else
      match generate_response message config history with
      | (calls, Ok result) => (calls, mkHttp 200 result)
      | (calls, Raise e) => (calls, mkHttp 500 (Error e))
      end.

End Server.

(** ** Start-up: the globals and [load_model] (lines 27 to 95) *)

(** What [Llama(...)] returns, seen through the one way it is used: called
    on a prompt and a budget. *)
Abbreviation Engine := (pystr -> Z -> result pystr).

(** The globals [llm] and [model_loaded] of lines 27 and 28. *)
Record Globals : Type := mkGlobals {
  g_llm : option Engine;
  g_model_loaded : bool
}.

Definition initial_globals : Globals := mkGlobals None false.

(** What [load_model] reads from the process and the file system. *)
Record Env : Type := mkEnv {
  BASE_PATH : pystr;
  executable_dir : result pystr;      (* os.path.dirname(sys.executable) *)
  getcwd : result pystr;              (* os.getcwd() *)
  path_join : list pystr -> pystr;    (* os.path.join *)
  path_exists : pystr -> bool;        (* os.path.exists *)
  Llama : pystr -> result Engine      (* the constructor, by model_path *)
}.

Definition model_filename : pystr := py "qwen1.5-1.8b-chat-q4_k_m.gguf".

(** Lines 57 to 62, in the order the list is built. *)
Definition possible_paths (env : Env) : result (list pystr) :=
  let p1 := path_join env [BASE_PATH env; py "model"; model_filename] in
  let p2 := path_join env [BASE_PATH env; model_filename] in
  let* exe_dir := executable_dir env in
  let p3 := path_join env [exe_dir; py "model"; model_filename] in
  let* cwd := getcwd env in
  let p4 := path_join env [cwd; py "model"; model_filename] in
  Ok [p1; p2; p3; p4].

(** Lines 64 to 68: the first path that exists, [None] when none does. *)
Fixpoint first_existing (exists_ : pystr -> bool) (paths : list pystr)
  : option pystr :=
  match paths with
  | [] => None
  | path :: rest =>
      if exists_ path then Some path else first_existing exists_ rest
  end.

(** Lines 50 to 95. The result holds the paths [Llama] was given, the
    globals afterwards and the returned flag. Every exception ends in the
    [except] of line 91, which returns [False] and assigns nothing. *)
Definition load_model (env : Env) (g : Globals)
  : list pystr * Globals * bool :=
  match possible_paths env with
  | Raise _ => ([], g, false)
  | Ok paths =>
      match first_existing (path_exists env) paths with
      | None => ([], g, false)
      | Some model_path =>
          if bool_decide (model_path = []) then ([], g, false)
          else
            match Llama env model_path with
            | Ok llm => ([model_path], mkGlobals (Some llm) true, true)
            | Raise _ => ([model_path], g, false)
            end
      end
  end.


(** [llm(...)] on the global: calling [None] raises [TypeError]. *)
Definition engine_of (g : Globals) : Engine :=
  match g_llm g with
  | Some llm => llm
  | None => fun _ _ => Raise (py "'NoneType' object is not callable")
  end.

(** The [/api/chat] handler on the globals. *)
Definition serve_chat (g : Globals) (data : ChatBody)
  : list Call * HttpResponse :=
  chat (g_model_loaded g) (engine_of g) data.


(** ** The page's script: [sendMessage] (lines 669 to 716) *)

(** The truth value JavaScript gives to a decoded value: unlike Python, an
    empty array or object is true. *)
Definition js_truthy (v : json) : bool :=
  match v with
  | JNull => false
  | JBool b => b
  | JNum n => negb (n =? 0)%Z
  | JStr s => negb (bool_decide (s = []))
  | JArr _ | JObj _ => true
  end.

(** Lines 698 to 704: what becomes of [sessionMemory] once the answer
    [data] is decoded. [data.response] is undefined on an error body. *)
Definition update_memory (config : gmap pystr json) (sessionMemory : list Turn)
    (message : pystr) (data : Reply) : list Turn :=
  match data with
  | Response response =>
      if bool_decide (response = []) then sessionMemory
      else
        match config !! py "sessionMemory" with
        | Some v =>
            if js_truthy v then
              let pushed := sessionMemory ++ [mkTurn message response] in
              if (8 <? length pushed)%nat then drop 1 pushed else pushed
            else sessionMemory
        | None => sessionMemory
        end
  | Error _ => sessionMemory
  end.

(** [sendMessage] against a server with globals [g], for a trimmed input
    [message] and the page's [modelLoaded] flag: the engine calls made and
    the new [sessionMemory]. The request is taken to reach the server; when
    [fetch] fails the [catch] of line 708 leaves the memory as it was. *)
Definition sendMessage (g : Globals) (modelLoaded : bool)
    (config : gmap pystr json) (sessionMemory : list Turn) (message : pystr)
  : list Call * list Turn :=
  if bool_decide (message = []) || negb modelLoaded then ([], sessionMemory)
  else
    let '(calls, response) :=
      serve_chat g (mkChatBody (Some message) (Some config) (Some sessionMemory)) in
    (calls, update_memory config sessionMemory message (payload response)).

(** ** Notions the specification uses *)


(** No line is equal to one of the two lines before it. *)
Definition no_near_repeat (lines : list pystr) : Prop :=
  forall i j li lj,
    lines !! i = Some li -> lines !! j = Some lj ->
    (i < j <= i + 2)%nat -> li <> lj.

(** Clean text as the specification describes it: nothing of the filtered
    script, no line repeating one of the two before it, at least 10
    characters. *)
Definition clean_spec (x : pystr) : Prop :=
  no_cjk x /\ no_near_repeat (Py.split_nl x) /\ (10 <= length x)%nat.

(** * Properties *)

(** ** Checks of the embedding on concrete values *)

Example strip_both_ends :
  Py.strip (py "  ab c ") = py "ab c".
Proof. reflexivity. Qed.

Example split_keeps_empty_items :
  Py.split_nl [97; 10; 10; 98; 10]%N = [[97]; []; [98]; []]%N.
Proof. reflexivity. Qed.

Example sub_newlines_runs :
  sub_newlines [97; 10; 98; 10; 10; 10; 10; 99; 10; 10]%N
  = [97; 10; 98; 10; 10; 99; 10; 10]%N.
Proof. reflexivity. Qed.

(** The comparison against the literal [0.3], checked against the kernel's
    binary64 arithmetic: at 3/10, just above it but inside the rounding
    interval of the literal, and well above it. *)
Example gt_03_binary64 :
  (gt_03 (3 # 10) = PrimFloat.ltb 0.3 (PrimFloat.div (of_uint63 3) (of_uint63 10)))
  /\ (gt_03 (2100000000000001 # 7000000000000003)
      = PrimFloat.ltb 0.3 (PrimFloat.div (of_uint63 2100000000000001)
                                         (of_uint63 7000000000000003)))
  /\ (gt_03 (31 # 100) = PrimFloat.ltb 0.3 (PrimFloat.div (of_uint63 31) (of_uint63 100))).
Proof. repeat split; vm_compute; reflexivity. Qed.

(** ** Python strings: strip, split and join *)

Module PyFacts.
Import Py.

Lemma lstrip_nil_blank s : lstrip s = [] <-> blank s.
Proof.
  unfold blank. induction s as [|c s IH]; simpl.
  - split; [constructor | reflexivity].
  - destruct (isspace c) eqn:Hc.
    + rewrite IH. split; [by constructor | by inversion 1].
    + split; [discriminate | inversion 1; congruence].
Qed.

Lemma lstrip_blank s : blank s -> lstrip s = [].
Proof. apply lstrip_nil_blank. Qed.

Lemma strip_nil_blank s : strip s = [] <-> blank s.
Proof.
  unfold strip, rstrip. split.
  - intros H. apply (f_equal reverse) in H.
    rewrite reverse_involutive in H. simpl in H.
    apply lstrip_nil_blank in H. unfold blank in H.
    rewrite Forall_reverse in H.
    destruct (lstrip s) as [|c s'] eqn:E; [by apply lstrip_nil_blank|].
    clear -H E. exfalso.
    induction s as [|d s IH]; simpl in E; [discriminate|].
    destruct (isspace d) eqn:Hd; [by apply IH|].
    inversion E; subst. inversion H; congruence.
  - intros H. rewrite (lstrip_blank _ H). reflexivity.
Qed.

Lemma Forall_lstrip (P : N -> Prop) s : Forall P s -> Forall P (lstrip s).
Proof.
  induction 1 as [|c s Hc Hs IH]; simpl; [constructor|].
  destruct (isspace c); [exact IH | by constructor].
Qed.

Lemma Forall_strip (P : N -> Prop) s : Forall P s -> Forall P (strip s).
Proof.
  intros H. unfold strip, rstrip.
  apply Forall_reverse, Forall_lstrip, Forall_reverse, Forall_lstrip, H.
Qed.

Lemma split_nl_cons s : exists l ls, split_nl s = l :: ls.
Proof.
  destruct s as [|c s]; simpl; [by eexists _, _|].
  destruct (c =? NL)%N; [by eexists _, _|].
  destruct (split_nl s); by eexists _, _.
Qed.

Lemma join_split_nl s : join_nl (split_nl s) = s.
Proof.
  induction s as [|c s IH]; [reflexivity|]. simpl.
  destruct (N.eqb_spec c NL) as [->|Hc].
  - destruct (split_nl_cons s) as (l & ls & E). rewrite E in *.
    change (join_nl ([] :: l :: ls)) with (NL :: join_nl (l :: ls)).
    by rewrite IH.
  - destruct (split_nl_cons s) as (l & ls & E). rewrite E in *.
    destruct ls as [|l' ls]; simpl in *; by rewrite IH.
Qed.

Lemma Forall_split_nl (P : N -> Prop) s :
  Forall P s -> Forall (Forall P) (split_nl s).
Proof.
  induction 1 as [|c s Hc Hs IH]; simpl; [by repeat constructor|].
  destruct (c =? NL)%N; [by constructor|].
  destruct (split_nl s) as [|l ls]; [by repeat constructor|].
  inversion IH; subst. constructor; [by constructor | done].
Qed.

Lemma Forall_join_nl (P : N -> Prop) parts :
  P NL -> Forall (Forall P) parts -> Forall P (join_nl parts).
Proof.
  intros HNL. induction 1 as [|p rest Hp Hrest IH]; [constructor|].
  destruct rest as [|q rest]; [exact Hp|].
  change (join_nl (p :: q :: rest)) with (p ++ NL :: join_nl (q :: rest)).
  apply Forall_app. split; [exact Hp | by constructor].
Qed.

Lemma elem_of_last_n {A} (n : nat) (l : list A) x :
  x ∈ last_n n l <->
  exists i, l !! i = Some x /\ (length l <= i + n)%nat.
Proof.
  unfold last_n. rewrite list_elem_of_lookup. split.
  - intros [i Hi]. rewrite lookup_drop in Hi.
    exists (length l - n + i)%nat. split; [exact Hi|].
    apply lookup_lt_Some in Hi. lia.
  - intros (i & Hi & Hle). exists (i - (length l - n))%nat.
    rewrite lookup_drop. apply lookup_lt_Some in Hi as Hlt.
    replace (length l - n + (i - (length l - n)))%nat with i by lia.
    exact Hi.
Qed.

End PyFacts.

(** ** The reply filter *)

Section Sanitizer.
Import Py PyFacts.

Lemma chinese_le_total s : (chinese_chars s <= total_chars s)%nat.
Proof.
  unfold chinese_chars, total_chars, findall_cjk, replace_char.
  rewrite length_map.
  induction s as [|c s IH]; simpl; [lia|].
  destruct (is_cjk c) eqn:Hc.
  - assert ((c =? SPACE)%N = false /\ (c =? NL)%N = false) as [-> Hnl].
    { unfold is_cjk in Hc. apply andb_true_iff in Hc as [Hlo _].
      apply N.leb_le in Hlo. unfold SPACE, NL.
      split; apply N.eqb_neq; lia. }
    simpl. rewrite Hnl. simpl. lia.
  - destruct (c =? SPACE)%N; simpl; [lia|].
    destruct (c =? NL)%N; simpl; lia.
Qed.

(** Below 2^52 characters the rounded comparison is the exact one. *)
Lemma gt_03_exact (c t : Z) :
  (0 < t < 2 ^ 52)%Z -> gt_03 (c # Z.to_pos t) = (3 * t <? 10 * c)%Z.
Proof.
  intros Ht. unfold gt_03. simpl Qnum. simpl Qden.
  rewrite Z2Pos.id by lia.
  change (2 ^ 55)%Z with 36028797018963968%Z.
  change (2 ^ 52)%Z with 4503599627370496%Z in Ht.
  destruct (Z.leb_spec (10808639105689191 * t) (c * 36028797018963968));
    destruct (Z.ltb_spec (3 * t) (10 * c)); lia.
Qed.

(** The test of line 141 never divides by zero, and no quotient of at
    most 3/10 passes it. *)
Lemma filter_chinese_ok s :
  exists over : bool,
    filter_chinese s = Ok (if over then APOLOGY else strip_and_clean s)
    /\ (over = true -> (3 * Z.of_nat (total_chars s) < 10 * Z.of_nat (chinese_chars s))%Z)
    /\ ((Z.of_nat (total_chars s) < 2 ^ 52)%Z ->
        over = (3 * Z.of_nat (total_chars s) <? 10 * Z.of_nat (chinese_chars s))%Z).
Proof.
  unfold filter_chinese.
  pose proof (chinese_le_total s) as Hle.
  destruct (Nat.ltb_spec 0 (total_chars s)) as [Hpos|Hzero].
  - unfold truediv.
    destruct (Z.eqb_spec (Z.of_nat (total_chars s)) 0) as [E|_]; [lia|].
    simpl. eexists. split; [reflexivity|]. split.
    + unfold gt_03. simpl Qnum. simpl Qden. rewrite Z2Pos.id by lia.
      change (2 ^ 55)%Z with 36028797018963968%Z. lia.
    + intros Hlt. apply gt_03_exact. lia.
  - exists false. simpl. split; [reflexivity|]. split; [discriminate|].
    intros _. symmetry. apply Z.ltb_ge. lia.
Qed.

Lemma no_cjk_sub_cjk s : no_cjk (sub_cjk s).
Proof.
  unfold no_cjk, sub_cjk. apply List.Forall_forall. intros c Hc.
  apply List.filter_In in Hc as [_ Hc]. by destruct (is_cjk c).
Qed.

Lemma Forall_sub_newlines_from (P : N -> Prop) run s :
  Forall P s -> Forall P (sub_newlines_from run s).
Proof.
  intros H. revert run. induction H as [|c s Hc Hs IH]; intros run; simpl;
    [constructor|].
  destruct (c =? NL)%N; [destruct (run <? 2)%nat|]; auto.
Qed.

Lemma no_cjk_strip_and_clean s : no_cjk (strip_and_clean s).
Proof.
  apply Forall_strip, Forall_sub_newlines_from, no_cjk_sub_cjk.
Qed.

(** The loop only ever appends lines of its input. *)
Lemma Forall_remove_repetition (P : pystr -> Prop) lines :
  Forall P lines -> Forall P (remove_repetition lines).
Proof.
  unfold remove_repetition.
  assert (forall acc, Forall P acc -> Forall P lines ->
                      Forall P (fold_left remove_repetition_step lines acc)) as H.
  { induction lines as [|l lines IH]; intros acc Hacc Hl; [exact Hacc|].
    inversion Hl; subst. simpl. apply IH; [|done].
    unfold remove_repetition_step. destruct (keep_line acc l); [|done].
    apply Forall_app. by split; [|constructor]. }
  by apply H.
Qed.

Lemma no_cjk_rejoin_unique s : no_cjk s -> no_cjk (rejoin_unique s).
Proof.
  intros H. apply Forall_join_nl; [reflexivity|].
  by apply Forall_remove_repetition, Forall_split_nl.
Qed.

(** A line is appended exactly when it is not blank and differs from the
    last two kept lines; on an empty [unique_lines] the slice is empty. *)
Lemma keep_line_spec unique_lines line :
  keep_line unique_lines line = true <->
  ~ blank line /\ line ∉ last_n 2 unique_lines.
Proof.
  unfold keep_line. rewrite andb_true_iff, orb_true_iff, !negb_true_iff.
  rewrite !bool_decide_eq_false, bool_decide_eq_true, strip_nil_blank.
  split; intros [Hb H]; split; try done.
  - destruct H as [-> | H]; [|done]. unfold last_n. simpl. by inversion 1.
  - by right.
Qed.

Lemma sanitize_unfold text :
  exists over : bool,
    let filtered := if over then APOLOGY else strip_and_clean (strip text) in
    filter_chinese (strip text) = Ok filtered
    /\ sanitize text = Ok (rephrase_if_short (rejoin_unique filtered)).
Proof.
  destruct (filter_chinese_ok (strip text)) as (over & E & _).
  exists over. split; [exact E|]. unfold sanitize. by rewrite E.
Qed.

Lemma rephrase_if_short_length s : (10 <= length (rephrase_if_short s))%nat.
Proof.
  unfold rephrase_if_short. destruct (Nat.ltb_spec (length s) 10); [|done].
  vm_compute. lia.
Qed.

Lemma no_cjk_rephrase_if_short s : no_cjk s -> no_cjk (rephrase_if_short s).
Proof.
  intros H. unfold rephrase_if_short. destruct (length s <? 10)%nat; [|done].
  apply (bool_decide_unpack _). by vm_compute.
Qed.

Lemma no_cjk_APOLOGY : no_cjk APOLOGY.
Proof. apply (bool_decide_unpack _). by vm_compute. Qed.

End Sanitizer.


(** ** Claims about the reply filter *)

Section SanitizerClaims.
Import Py PyFacts.

(** C1, as the specification words it: the loop would keep
    ["A", "B", "A"] from ["A", "A", "B", "A"]. It does not. *)
Lemma C1_counterexample :
  remove_repetition [py "A"; py "A"; py "B"; py "A"]
  <> [py "A"; py "B"; py "A"].
Proof. vm_compute. discriminate. Qed.

(** C1, amended: on the lines ["A", "A", "B", "A"] the loop of lines 150
    to 152 keeps ["A", "B"]. The second "A" repeats the only kept line; the
    last "A" repeats the first kept line, which is still one of the two
    kept lines before it. *)
Theorem C1_remove_repetition_AABA :
  remove_repetition [py "A"; py "A"; py "B"; py "A"] = [py "A"; py "B"].
Proof. reflexivity. Qed.

(** The window is the last two kept lines and no more: a line that repeats
    the third kept line before it stays. *)
Example remove_repetition_window :
  remove_repetition [py "A"; py "B"; py "C"; py "A"]
  = [py "A"; py "B"; py "C"; py "A"].
Proof. reflexivity. Qed.




(** C5: the reply filter never raises and never returns the empty
    string. The division of line 141 is never reached with a zero
    denominator, and a result of fewer than 10 characters is replaced by
    the fixed "please rephrase" message. *)
Theorem C5_sanitize_total (text : pystr) :
  exists filtered reply : pystr,
    filter_chinese (strip text) = Ok filtered
    /\ sanitize text = Ok reply
    /\ reply = (if (length (rejoin_unique filtered) <? 10)%nat
                then REPHRASE else rejoin_unique filtered)
    /\ reply <> [].
Proof.
  destruct (sanitize_unfold text) as (over & E & Hs).
  eexists _, _. split; [exact E|]. split; [exact Hs|]. split; [reflexivity|].
  intros Hnil. pose proof (rephrase_if_short_length
    (rejoin_unique (if over then APOLOGY else strip_and_clean (strip text)))) as Hlen.
  rewrite Hnil in Hlen. simpl in Hlen. lia.
Qed.

(** The degenerate inputs the claim names, and the division the guard
    protects. *)
Example sanitize_degenerate :
  sanitize [] = Ok REPHRASE
  /\ sanitize (py "   ") = Ok REPHRASE
  /\ sanitize [0x4e2d; 0x6587]%N = Ok APOLOGY
  /\ truediv 0 0 = Raise (py "division by zero").
Proof. repeat split. Qed.

(** C6: whatever text the engine returns, the reply has at least 10
    characters and none in U+4E00..U+9FFF, whether it is the apology, the
    cleaned text or the "please rephrase" message. *)
Theorem C6_reply_length_and_script (text : pystr) :
  exists reply : pystr,
    sanitize text = Ok reply
    /\ (10 <= length reply)%nat
    /\ no_cjk reply.
Proof.
  destruct (sanitize_unfold text) as (over & _ & Hs).
  eexists. split; [exact Hs|]. split; [apply rephrase_if_short_length|].
  apply no_cjk_rephrase_if_short, no_cjk_rejoin_unique.
  destruct over; [apply no_cjk_APOLOGY | apply no_cjk_strip_and_clean].
Qed.

End SanitizerClaims.

(** ** Clean text is a fixed point of the reply filter *)

Section FixedPoint.
Import Py PyFacts.

Lemma sub_cjk_id s : no_cjk s -> sub_cjk s = s.
Proof.
  unfold sub_cjk. induction 1 as [|c s Hc Hs IH]; [reflexivity|].
  simpl. by rewrite Hc, IH.
Qed.

Lemma chinese_chars_no_cjk s : no_cjk s -> chinese_chars s = 0%nat.
Proof.
  unfold chinese_chars, findall_cjk. rewrite length_map.
  induction 1 as [|c s Hc Hs IH]; [reflexivity|]. simpl. by rewrite Hc.
Qed.

(** A text without empty line has no two newlines in a row, and the
    substitution of line 145 leaves it as it is. The first part allows the
    text to start with a newline when fewer than two were just written. *)
Lemma sub_newlines_from_id s :
  (Forall (fun l => l <> []) (tail (split_nl s)) ->
   forall run, (run <= 1)%nat -> sub_newlines_from run s = s)
  /\ (Forall (fun l => l <> []) (split_nl s) ->
      forall run, sub_newlines_from run s = s).
Proof.
  induction s as [|c s [IH1 IH2]]; [by split|].
  simpl. destruct (N.eqb_spec c NL) as [->|Hc].
  - split.
    + simpl. intros H run Hrun.
      destruct (Nat.ltb_spec run 2); [|lia]. by rewrite IH2.
    + intros H. inversion H; congruence.
  - destruct (split_nl_cons s) as (l & ls & E). rewrite E in *. simpl in *.
    split.
    + intros H run _. rewrite IH1; [reflexivity | exact H | lia].
    + intros H run. inversion H; subst. rewrite IH1; [reflexivity | done | lia].
Qed.

Lemma sub_newlines_id s :
  Forall (fun l => ~ blank l) (split_nl s) -> sub_newlines s = s.
Proof.
  intros H. apply sub_newlines_from_id.
  eapply Forall_impl; [exact H|]. intros l Hl ->. apply Hl. constructor.
Qed.

Lemma remove_repetition_fold_id lines : forall acc,
  Forall (fun l => ~ blank l) lines ->
  no_near_repeat (acc ++ lines) ->
  fold_left remove_repetition_step lines acc = acc ++ lines.
Proof.
  induction lines as [|l lines IH]; intros acc Hnb Hrep; simpl.
  - by rewrite app_nil_r.
  - inversion Hnb as [|? ? Hl Hrest]; subst.
    assert (keep_line acc l = true) as Hkeep.
    { apply keep_line_spec. split; [exact Hl|].
      intros Hin. apply elem_of_last_n in Hin as (i & Hi & Hlen).
      apply lookup_lt_Some in Hi as Hlt.
      apply (Hrep i (length acc) l l); [| |lia|reflexivity].
      - by rewrite lookup_app_l.
      - by rewrite list_lookup_middle. }
    unfold remove_repetition_step at 2. rewrite Hkeep.
    rewrite IH; [by rewrite <- app_assoc | exact Hrest |].
    by rewrite <- app_assoc.
Qed.

Lemma remove_repetition_id lines :
  Forall (fun l => ~ blank l) lines -> no_near_repeat lines ->
  remove_repetition lines = lines.
Proof. intros. by apply (remove_repetition_fold_id lines []). Qed.

(** C7, as the specification words it, fails on clean text that starts
    with spaces, which the filter trims, and on clean text with an empty
    line, which the loop of lines 150 to 152 drops. *)
Lemma C7_counterexample :
  let x1 := py "  Hello world" in
  let x2 := py "Hello world" ++ [NL; NL] ++ py "again" in
  (clean_spec x1 /\ sanitize x1 <> Ok x1)
  /\ (clean_spec x2 /\ sanitize x2 <> Ok x2).
Proof.
  intros x1 x2.
  assert (forall x, no_cjk x -> no_near_repeat (split_nl x) ->
                    (10 <= length x)%nat -> clean_spec x) as Hclean by done.
  split; (split; [apply Hclean | vm_compute; discriminate]);
    try (apply (bool_decide_unpack _); by vm_compute); try (vm_compute; lia).
  - intros [|i] [|j] li lj Hi Hj Hij; vm_compute in Hi, Hj; try lia;
      by destruct j.
  - intros [|[|[|i]]] [|[|[|j]]] li lj Hi Hj Hij; vm_compute in Hi, Hj;
      try lia; congruence.
Qed.

(** C7, amended: a text with no character in U+4E00..U+9FFF, no
    whitespace at either end, no blank line, no line equal to one of the
    two lines before it, and at least 10 characters, is returned
    unchanged, and so is it when the filter is applied twice. *)
Theorem C7_sanitize_clean_fixed_point (x : pystr) :
  no_cjk x ->
  strip x = x ->
  Forall (fun line => ~ blank line) (split_nl x) ->
  no_near_repeat (split_nl x) ->
  (10 <= length x)%nat ->
  sanitize x = Ok x
  /\ (let* y := sanitize x in sanitize y) = Ok x.
Proof.
  intros Hcjk Hstrip Hlines Hrep Hlen.
  assert (sanitize x = Ok x) as Hs.
  { unfold sanitize. rewrite Hstrip.
    destruct (filter_chinese_ok x) as (over & E & Hover & _).
    rewrite E. simpl. destruct over.
    - specialize (Hover eq_refl).
      rewrite (chinese_chars_no_cjk x Hcjk) in Hover. lia.
    - unfold strip_and_clean.
      rewrite (sub_cjk_id x Hcjk), (sub_newlines_id x Hlines), Hstrip.
      unfold rejoin_unique.
      rewrite (remove_repetition_id _ Hlines Hrep), join_split_nl.
      unfold rephrase_if_short.
      destruct (Nat.ltb_spec (length x) 10); [lia | reflexivity]. }
  split; [exact Hs|]. rewrite Hs. exact Hs.
Qed.

(** Two different lines, no whitespace around, 17 characters. *)
Lemma C7_witness_two_lines :
  let x := py "Line one" ++ [NL] ++ py "Line two" in
  sanitize x = Ok x /\ (let* y := sanitize x in sanitize y) = Ok x.
Proof.
  intros x. apply (C7_sanitize_clean_fixed_point x).
  - apply (bool_decide_unpack _). by vm_compute.
  - reflexivity.
  - repeat constructor; intros H; apply strip_nil_blank in H; vm_compute in H;
      discriminate.
  - intros [|[|i]] [|[|j]] li lj Hi Hj Hij; vm_compute in Hi, Hj;
      try lia; congruence.
  - vm_compute. lia.
Defined.

End FixedPoint.

(** ** Claims about the context and the token budget *)

Section Assembly.
Import Py.

Lemma last_n_split {A} (n : nat) (l : list A) :
  (n <= length l)%nat ->
  l = take (length l - n) l ++ last_n n l /\ length (last_n n l) = n.
Proof.
  intros H. unfold last_n. split; [by rewrite take_drop|].
  rewrite length_drop. lia.
Qed.

(** C8: with [sessionMemory] true and more than 5 turns the parts between
    the system prompt and the new message are the header and, for each of
    the last 5 turns in their order, a [User: ] line then an
    [Assistant: ] line; no earlier turn is rendered. With [sessionMemory]
    false or absent, or an empty history, there is no header and no turn
    at all. *)
Theorem C8_transcript_last_five (prompt : pystr) (config : gmap pystr json)
    (history : list Turn) :
  (dict_get config (py "sessionMemory") = Some (JBool true) ->
   (5 < length history)%nat ->
   exists earlier recent : list Turn,
     history = earlier ++ recent
     /\ length recent = 5%nat
     /\ full_prompt prompt config history
        = join_nl
            ([SYSTEM_PROMPT; TRANSCRIPT_HEADER]
             ++ concat (map (fun turn => [py "User: " ++ user turn;
                                          py "Assistant: " ++ assistant turn])
                            recent)
             ++ [NL :: py "User: " ++ prompt; py "Assistant:"]))
  /\ (dict_get config (py "sessionMemory") = Some (JBool false)
      \/ dict_get config (py "sessionMemory") = None
      \/ history = [] ->
      full_prompt prompt config history
      = join_nl [SYSTEM_PROMPT; NL :: py "User: " ++ prompt; py "Assistant:"]).
Proof.
  unfold full_prompt. split.
  - intros Hmem Hlen.
    destruct (last_n_split 5 history) as [Hsplit Hfive]; [lia|].
    eexists _, _. split; [exact Hsplit|]. split; [exact Hfive|].
    f_equal. unfold context_parts, uses_history. rewrite Hmem. simpl.
    destruct history; [simpl in Hlen; lia|]. reflexivity.
  - intros H. f_equal. unfold context_parts, uses_history.
    destruct H as [-> | [-> | ->]]; try reflexivity.
    destruct (dict_get config (py "sessionMemory")) as [v|]; [|reflexivity].
    by rewrite andb_false_r.
Qed.

(** Six turns with [sessionMemory] on: the first one is left out. *)
Lemma C8_witness_six_turns :
  let config : gmap pystr json := {[ py "sessionMemory" := JBool true ]} in
  let history :=
    map (fun n => mkTurn (py "question " ++ [n]) (py "answer " ++ [n]))
        [49; 50; 51; 52; 53; 54]%N in
  exists earlier recent : list Turn,
    history = earlier ++ recent
    /\ length recent = 5%nat
    /\ full_prompt (py "next") config history
       = join_nl
           ([SYSTEM_PROMPT; TRANSCRIPT_HEADER]
            ++ concat (map (fun turn => [py "User: " ++ user turn;
                                         py "Assistant: " ++ assistant turn])
                           recent)
            ++ [NL :: py "User: " ++ py "next"; py "Assistant:"]).
Proof.
  intros config history.
  apply (proj1 (C8_transcript_last_five (py "next") config history)).
  - vm_compute. reflexivity.
  - vm_compute. lia.
Defined.

Lemma token_limits_other (s : pystr) :
  s <> py "short" -> s <> py "medium" -> s <> py "long" ->
  token_limits !! s = None.
Proof.
  intros H1 H2 H3. unfold token_limits.
  rewrite !lookup_insert_ne, lookup_singleton_ne; congruence.
Qed.

(** C9: the code at a [responseLength] that is a list or a dict. The
    lookup of line 118 does not fall back to 600 there: hashing the key
    raises [TypeError], the exception leaves [generate_response], and the
    handler answers 500 without calling the engine. *)
Theorem C9_unhashable_responseLength_raises
    (llm : pystr -> Z -> result pystr) (message : pystr)
    (config : gmap pystr json) (history : list Turn) (v : json) :
  message <> [] ->
  dict_get config (py "responseLength") = Some v ->
  hashable v = false ->
  exists e,
    max_tokens config = Raise e
    /\ (forall n, max_tokens config <> Ok n)
    /\ chat true llm (mkChatBody (Some message) (Some config) (Some history))
       = ([], mkHttp 500 (Error e)).
Proof.
  intros Hm Hv Hh.
  assert (exists e, max_tokens config = Raise e) as [e E].
  { unfold max_tokens, dict_get_default. unfold dict_get in Hv. rewrite Hv.
    destruct v; try discriminate; simpl; by eexists. }
  exists e. split; [exact E|]. split; [by rewrite E|].
  unfold chat, generate_response. simpl.
  rewrite bool_decide_eq_false_2 by exact Hm. by rewrite E.
Qed.

(** A [responseLength] that is the empty list, on an engine that would
    answer. *)
Lemma C9_witness_list_value :
  let llm : pystr -> Z -> result pystr :=
    fun _ _ => Ok (py "A reply of the engine.") in
  let config : gmap pystr json := {[ py "responseLength" := JArr [] ]} in
  exists e,
    max_tokens config = Raise e
    /\ (forall n, max_tokens config <> Ok n)
    /\ chat true llm (mkChatBody (Some (py "hi")) (Some config) (Some []))
       = ([], mkHttp 500 (Error e)).
Proof.
  intros llm config.
  apply (C9_unhashable_responseLength_raises llm (py "hi") config [] (JArr [])).
  - discriminate.
  - by vm_compute.
  - reflexivity.
Defined.

(** The budget on the values Python can hash: 300 for "short", 600 for
    "medium", 1000 for "long", and 600 when the key is absent and for
    every other value that is a string, a number, a boolean or null; for
    all of these the lookup returns. *)
Theorem C9_max_tokens_budget (config : gmap pystr json) :
  (dict_get config (py "responseLength") = Some (JStr (py "short")) ->
   max_tokens config = Ok 300%Z)
  /\ (dict_get config (py "responseLength") = Some (JStr (py "medium")) ->
      max_tokens config = Ok 600%Z)
  /\ (dict_get config (py "responseLength") = Some (JStr (py "long")) ->
      max_tokens config = Ok 1000%Z)
  /\ (dict_get config (py "responseLength") = None ->
      max_tokens config = Ok 600%Z)
  /\ (forall v,
        dict_get config (py "responseLength") = Some v ->
        hashable v = true ->
        v <> JStr (py "short") -> v <> JStr (py "medium") ->
        v <> JStr (py "long") ->
        max_tokens config = Ok 600%Z).
Proof.
  unfold max_tokens, dict_get_default, dict_get.
  repeat split; try (intros ->; reflexivity).
  intros v -> Hv H1 H2 H3. simpl.
  destruct v; try discriminate; try reflexivity.
  simpl. unfold dict_get_default.
  rewrite token_limits_other by congruence. reflexivity.
Qed.

(** Two known tiers, an absent key, an unknown string and a number. *)
Lemma C9_witness_budgets :
  let config (v : json) : gmap pystr json := {[ py "responseLength" := v ]} in
  max_tokens (config (JStr (py "short"))) = Ok 300%Z
  /\ max_tokens (config (JStr (py "long"))) = Ok 1000%Z
  /\ max_tokens ∅ = Ok 600%Z
  /\ max_tokens (config (JStr (py "verbose"))) = Ok 600%Z
  /\ max_tokens (config (JNum 7)) = Ok 600%Z.
Proof.
  intros config.
  split; [|split; [|split; [|split]]].
  - apply (proj1 (C9_max_tokens_budget _)). by vm_compute.
  - apply (proj1 (proj2 (proj2 (C9_max_tokens_budget _)))). by vm_compute.
  - apply (proj1 (proj2 (proj2 (proj2 (C9_max_tokens_budget _))))).
    by vm_compute.
  - apply (proj2 (proj2 (proj2 (proj2 (C9_max_tokens_budget _))))
             (JStr (py "verbose"))); by vm_compute.
  - apply (proj2 (proj2 (proj2 (proj2 (C9_max_tokens_budget _)))) (JNum 7));
      by vm_compute.
Defined.

End Assembly.

(** ** Claims about the [/api/chat] handler *)

Section Handler.
Import Py.

Variable llm : pystr -> Z -> result pystr.

(** With the model loaded and a message, the handler makes one engine
    call and answers 200 with whatever [generate_response] returned,
    unless the budget lookup raised. *)
Lemma chat_loaded_message (message : pystr) (config : gmap pystr json)
    (history : list Turn) (n : Z) :
  message <> [] ->
  max_tokens config = Ok n ->
  chat true llm (mkChatBody (Some message) (Some config) (Some history))
  = ([mkCall (full_prompt message config history) n],
     mkHttp 200
       (match (let* text := llm (full_prompt message config history) n in
               sanitize text) with
        | Ok bot_reply => Response bot_reply
        | Raise e => Error e
        end)).
Proof.
  intros Hmsg Hn. unfold chat, generate_response. simpl.
  rewrite bool_decide_eq_false_2 by exact Hmsg. by rewrite Hn.
Qed.

(** C2: when the engine call raises, with the model loaded and a
    non-empty message, the body is [{"error": str(e)}] as the claim says,
    but line 825 sends it with status 200, not 500: the exception was
    caught at line 161 and never reaches the handler's own [except]. *)
Theorem C2_engine_error_is_sent_with_200 (message : pystr)
    (config : gmap pystr json) (history : list Turn) (n : Z) (e : pystr) :
  message <> [] ->
  max_tokens config = Ok n ->
  llm (full_prompt message config history) n = Raise e ->
  chat true llm (mkChatBody (Some message) (Some config) (Some history))
  = ([mkCall (full_prompt message config history) n], mkHttp 200 (Error e)).
Proof.
  intros Hmsg Hn He. rewrite (chat_loaded_message _ _ _ n Hmsg Hn).
  by rewrite He.
Qed.

(** C3, amended: a body whose message is the empty string is answered
    with 400 when the model is loaded, whatever its other fields, and with
    500 when the model is not loaded; the engine is called in neither
    case. *)
Theorem C3_empty_message (model_loaded : bool)
    (config : option (gmap pystr json)) (history : option (list Turn)) :
  chat model_loaded llm (mkChatBody (Some []) config history)
  = ([], if model_loaded then mkHttp 400 (Error (py "No message"))
         else mkHttp 500 (Error (py "Model not loaded"))).
Proof. by destruct model_loaded. Qed.

(** C10: an absent field is read as its default. A body without
    [message] is answered like an empty message, with 400 when the model
    is loaded; without [config] and [history] the handler goes on with an
    empty dict and an empty list: the prompt has no transcript, the budget
    is 600, and the answer is 200. *)
Theorem C10_absent_fields_default :
  (forall model_loaded data,
     chat model_loaded llm data
     = chat model_loaded llm
         (mkChatBody (Some (default [] (body_message data)))
                     (Some (default ∅ (body_config data)))
                     (Some (default [] (body_history data)))))
  /\ (forall config history,
        chat true llm (mkChatBody None config history)
        = ([], mkHttp 400 (Error (py "No message"))))
  /\ (forall message,
        message <> [] ->
        let prompt :=
          join_nl [SYSTEM_PROMPT; NL :: py "User: " ++ message; py "Assistant:"] in
        chat true llm (mkChatBody (Some message) None None)
        = ([mkCall prompt 600%Z],
           mkHttp 200
             (match (let* text := llm prompt 600%Z in sanitize text) with
              | Ok bot_reply => Response bot_reply
              | Raise e => Error e
              end))).
Proof.
  split; [|split].
  - intros model_loaded [message config history]. reflexivity.
  - intros config history. reflexivity.
  - intros message Hmsg prompt.
    change (chat true llm (mkChatBody (Some message) None None))
      with (chat true llm (mkChatBody (Some message) (Some ∅) (Some []))).
    by rewrite (chat_loaded_message message ∅ [] 600 Hmsg).
Qed.

End Handler.

(** The engine raises on a short message sent with an empty config. *)
Lemma C2_witness_engine_raises :
  let llm : pystr -> Z -> result pystr := fun _ _ => Raise (py "boom") in
  chat true llm (mkChatBody (Some (py "hi")) (Some ∅) (Some []))
  = ([mkCall (full_prompt (py "hi") ∅ []) 600], mkHttp 200 (Error (py "boom"))).
Proof.
  intros llm.
  apply (C2_engine_error_is_sent_with_200 llm (py "hi") ∅ [] 600 (py "boom")).
  - discriminate.
  - reflexivity.
  - reflexivity.
Defined.

(** C3, as the specification words it, fails while the model is not
    loaded: the handler answers 500 before it reads the body. *)
Lemma C3_counterexample :
  status (snd (chat false (fun _ _ => Ok (py "A reply of the engine."))
                 (mkChatBody (Some []) (Some ∅) (Some []))))
  <> 400%Z.
Proof. vm_compute. discriminate. Qed.

(** A body that holds a message and nothing else. *)
Lemma C10_witness_message_only :
  let llm : pystr -> Z -> result pystr :=
    fun _ _ => Ok (py "A buffer overflow writes past the end of a buffer.") in
  let prompt :=
    Py.join_nl [SYSTEM_PROMPT; Py.NL :: py "User: " ++ py "What is a buffer overflow?";
                py "Assistant:"] in
  chat true llm (mkChatBody (Some (py "What is a buffer overflow?")) None None)
  = ([mkCall prompt 600%Z],
     mkHttp 200
       (match (let* text := llm prompt 600%Z in sanitize text) with
        | Ok bot_reply => Response bot_reply
        | Raise e => Error e
        end)).
Proof.
  intros llm.
  apply (proj2 (proj2 (C10_absent_fields_default llm))
           (py "What is a buffer overflow?")).
  discriminate.
Defined.

(** * Further properties of the code *)

(** ** The repetition loop and the reply it leaves *)

Section Repetition.
Import Py PyFacts.

Lemma keep_line_blank unique_lines line :
  strip line = [] -> keep_line unique_lines line = false.
Proof. intros H. unfold keep_line. by rewrite bool_decide_eq_true_2. Qed.

(** Blank lines are invisible to the loop of lines 150 to 152: they are
    not kept and they do not count among the two preceding lines, so the
    kept lines are those of the input without its blank lines. *)
Theorem remove_repetition_skips_blank_lines (lines : list pystr) :
  remove_repetition lines
  = remove_repetition
      (List.filter (fun line => negb (bool_decide (strip line = []))) lines).
Proof.
  unfold remove_repetition. generalize (@nil pystr) as acc.
  induction lines as [|l lines IH]; intros acc; [reflexivity|].
  simpl. destruct (decide (strip l = [])) as [Hb|Hb].
  - rewrite (bool_decide_eq_true_2 _ Hb). simpl.
    unfold remove_repetition_step at 2. rewrite (keep_line_blank _ _ Hb).
    apply IH.
  - rewrite (bool_decide_eq_false_2 _ Hb). simpl. apply IH.
Qed.

Lemma no_near_repeat_snoc (kept : list pystr) (line : pystr) :
  no_near_repeat kept -> line ∉ last_n 2 kept ->
  no_near_repeat (kept ++ [line]).
Proof.
  intros Hrep Hnew i j li lj Hi Hj Hij.
  apply lookup_lt_Some in Hj as Hjlt. rewrite length_app in Hjlt.
  simpl in Hjlt.
  destruct (decide (j < length kept)%nat) as [Hlt|Hge].
  - rewrite lookup_app_l in Hi, Hj by lia. by apply (Hrep i j).
  - assert (j = length kept) as -> by lia.
    rewrite list_lookup_middle in Hj by done. injection Hj as <-.
    rewrite lookup_app_l in Hi by lia.
    intros ->. apply Hnew, elem_of_last_n. exists i. split; [done | lia].
Qed.

Lemma remove_repetition_fold_inv (lines acc : list pystr) :
  Forall (fun l => ~ blank l) acc -> no_near_repeat acc ->
  exists kept,
    fold_left remove_repetition_step lines acc = acc ++ kept
    /\ kept `sublist_of` lines
    /\ Forall (fun l => ~ blank l) (acc ++ kept)
    /\ no_near_repeat (acc ++ kept).
Proof.
  revert acc. induction lines as [|l lines IH]; intros acc Hnb Hrep; simpl.
  - exists []. rewrite app_nil_r. by repeat split.
  - unfold remove_repetition_step at 2.
    destruct (keep_line acc l) eqn:Hkeep.
    + apply keep_line_spec in Hkeep as [Hl Hnew].
      destruct (IH (acc ++ [l])) as (kept & E & Hsub & Hnb' & Hrep').
      { apply Forall_app. by split; [|constructor]. }
      { by apply no_near_repeat_snoc. }
      exists (l :: kept). rewrite E, <- !app_assoc. simpl.
      rewrite <- !app_assoc in Hnb', Hrep'. simpl in Hnb', Hrep'.
      repeat split; try done. by apply sublist_skip.
    + destruct (IH acc Hnb Hrep) as (kept & E & Hsub & Hnb' & Hrep').
      exists kept. repeat split; try done. by apply sublist_cons.
Qed.

Lemma remove_repetition_inv (lines : list pystr) :
  remove_repetition lines `sublist_of` lines
  /\ Forall (fun line => ~ blank line) (remove_repetition lines)
  /\ no_near_repeat (remove_repetition lines).
Proof.
  destruct (remove_repetition_fold_inv lines []) as (kept & E & Hsub & Hnb & Hrep).
  { constructor. }
  { intros i j li lj Hi. by rewrite lookup_nil in Hi. }
  simpl in *. unfold remove_repetition. by rewrite E.
Qed.

(** The kept lines are lines of the input in their order, none of them
    blank, none equal to one of the two kept lines before it; running the
    loop on them again removes nothing. *)
Theorem remove_repetition_kept_lines (lines : list pystr) :
  let kept := remove_repetition lines in
  kept `sublist_of` lines
  /\ Forall (fun line => ~ blank line) kept
  /\ no_near_repeat kept
  /\ remove_repetition kept = kept.
Proof.
  destruct (remove_repetition_inv lines) as (Hsub & Hnb & Hrep).
  repeat split; try done. by apply remove_repetition_id.
Qed.

Lemma split_nl_lines (s : pystr) : Forall (fun l => NL ∉ l) (split_nl s).
Proof.
  induction s as [|c s IH]; simpl.
  - repeat constructor. by inversion 1.
  - destruct (N.eqb_spec c NL) as [->|Hc].
    + constructor; [by inversion 1 | done].
    + destruct (split_nl s) as [|l ls]; [repeat constructor|].
      * intros H. apply list_elem_of_singleton in H. congruence.
      * inversion IH; subst. constructor; [|done].
        intros H. apply elem_of_cons in H as [H|H]; congruence.
Qed.

Lemma split_nl_app_nl (p s : pystr) :
  NL ∉ p -> split_nl (p ++ NL :: s) = p :: split_nl s.
Proof.
  induction p as [|c p IH]; intros Hp; simpl.
  - reflexivity.
  - apply not_elem_of_cons in Hp as [Hc Hp].
    destruct (N.eqb_spec c NL) as [->|_]; [done|]. by rewrite IH.
Qed.

Lemma split_nl_line (p : pystr) : NL ∉ p -> split_nl p = [p].
Proof.
  induction p as [|c p IH]; intros Hp; simpl; [reflexivity|].
  apply not_elem_of_cons in Hp as [Hc Hp].
  destruct (N.eqb_spec c NL) as [->|_]; [done|]. by rewrite IH.
Qed.

(** Joining lines and splitting again gives the lines back. *)
Lemma split_join_nl (parts : list pystr) :
  parts <> [] -> Forall (fun l => NL ∉ l) parts ->
  split_nl (join_nl parts) = parts.
Proof.
  induction parts as [|p rest IH]; [done|]. intros _ Hall.
  inversion Hall as [|? ? Hp Hrest]; subst.
  destruct rest as [|q rest]; [by apply split_nl_line|].
  change (join_nl (p :: q :: rest)) with (p ++ NL :: join_nl (q :: rest)).
  rewrite split_nl_app_nl by done. by rewrite IH.
Qed.

Lemma no_near_repeat_singleton (l : pystr) : no_near_repeat [l].
Proof.
  intros i j li lj Hi Hj Hij. apply lookup_lt_Some in Hj. simpl in Hj. lia.
Qed.

(** Every reply of the filter, read line by line, has no blank line and no
    line equal to one of the two lines before it. *)
Theorem sanitize_reply_lines (text : pystr) :
  exists reply : pystr,
    sanitize text = Ok reply
    /\ Forall (fun line => ~ blank line) (split_nl reply)
    /\ no_near_repeat (split_nl reply).
Proof.
  destruct (sanitize_unfold text) as (over & _ & Hs).
  eexists. split; [exact Hs|].
  set (filtered := if over then APOLOGY else strip_and_clean (strip text)).
  unfold rephrase_if_short.
  destruct (Nat.ltb_spec (length (rejoin_unique filtered)) 10) as [_|Hlen].
  - change (split_nl REPHRASE) with [REPHRASE].
    split; [|apply no_near_repeat_singleton].
    constructor; [|constructor]. intros H. apply strip_nil_blank in H.
    vm_compute in H. discriminate.
  - unfold rejoin_unique in *.
    destruct (remove_repetition_inv (split_nl filtered))
      as (Hsub & Hnb & Hrep).
    rewrite split_join_nl; [done | |].
    + intros E. rewrite E in Hlen. simpl in Hlen. lia.
    + apply Forall_remove_repetition, split_nl_lines.
Qed.

Lemma length_join_nl (parts : list pystr) :
  length (join_nl parts)
  = (sum_list (map (fun l => S (length l)) parts) - 1)%nat.
Proof.
  induction parts as [|p rest IH]; [reflexivity|].
  destruct rest as [|q rest]; [simpl; lia|].
  change (join_nl (p :: q :: rest)) with (p ++ NL :: join_nl (q :: rest)).
  rewrite length_app, length_cons, IH. simpl. lia.
Qed.

Lemma length_join_nl_sublist (kept lines : list pystr) :
  kept `sublist_of` lines ->
  (length (join_nl kept) <= length (join_nl lines))%nat.
Proof.
  intros H. rewrite !length_join_nl.
  assert (sum_list (map (fun l => S (length l)) kept)
          <= sum_list (map (fun l => S (length l)) lines))%nat; [|lia].
  induction H; simpl; lia.
Qed.

Lemma length_rejoin_unique (s : pystr) :
  (length (rejoin_unique s) <= length s)%nat.
Proof.
  unfold rejoin_unique. rewrite <- (join_split_nl s) at 2.
  apply length_join_nl_sublist, remove_repetition_inv.
Qed.

Lemma length_lstrip (s : pystr) : (length (lstrip s) <= length s)%nat.
Proof.
  induction s as [|c s IH]; simpl; [lia|]. destruct (isspace c); simpl; lia.
Qed.

Lemma length_strip (s : pystr) : (length (strip s) <= length s)%nat.
Proof.
  unfold strip, rstrip. rewrite length_reverse.
  etrans; [apply length_lstrip|]. rewrite length_reverse. apply length_lstrip.
Qed.

Lemma length_sub_newlines_from run (s : pystr) :
  (length (sub_newlines_from run s) <= length s)%nat.
Proof.
  revert run. induction s as [|c s IH]; intros run; simpl; [lia|].
  destruct (c =? NL)%N; [destruct (run <? 2)%nat|]; simpl.
  - specialize (IH (S run)). lia.
  - specialize (IH run). lia.
  - specialize (IH 0%nat). lia.
Qed.

Lemma length_strip_and_clean (s : pystr) :
  (length (strip_and_clean s) <= length s)%nat.
Proof.
  unfold strip_and_clean, sub_newlines.
  etrans; [apply length_strip|]. etrans; [apply length_sub_newlines_from|].
  unfold sub_cjk. apply List.filter_length_le.
Qed.

(** The filter never makes a text longer than it was, unless it replaces
    it by one of its two fixed messages, of 47 and 60 characters. *)
Theorem sanitize_reply_length_bound (text : pystr) :
  exists reply : pystr,
    sanitize text = Ok reply
    /\ (reply = APOLOGY \/ reply = REPHRASE
        \/ (length reply <= length text)%nat)
    /\ (length reply <= Nat.max 60 (length text))%nat.
Proof.
  destruct (sanitize_unfold text) as (over & _ & Hs).
  eexists. split; [exact Hs|].
  assert (rephrase_if_short (rejoin_unique
            (if over then APOLOGY else strip_and_clean (strip text))) = APOLOGY
          \/ rephrase_if_short (rejoin_unique
            (if over then APOLOGY else strip_and_clean (strip text))) = REPHRASE
          \/ (length (rephrase_if_short (rejoin_unique
            (if over then APOLOGY else strip_and_clean (strip text))))
              <= length text)%nat) as H.
  { destruct over; [by left|].
    unfold rephrase_if_short.
    destruct (length (rejoin_unique (strip_and_clean (strip text))) <? 10)%nat;
      [by right; left|].
    right; right. etrans; [apply length_rejoin_unique|].
    etrans; [apply length_strip_and_clean|]. apply length_strip. }
  split; [exact H|].
  assert (length APOLOGY = 47%nat /\ length REPHRASE = 60%nat) as [Ha Hr]
    by done.
  destruct H as [-> | [-> | H]]; lia.
Qed.

(** A text without any character of U+4E00..U+9FFF is never replaced by
    the apology, and a text made of such characters only always is. *)
Theorem sanitize_script_extremes (text : pystr) :
  (no_cjk text ->
   sanitize text
   = Ok (rephrase_if_short
           (rejoin_unique (strip (sub_newlines (strip text))))))
  /\ (text <> [] -> Forall (fun c => is_cjk c = true) text ->
      sanitize text = Ok APOLOGY).
Proof.
  split.
  - intros Hcjk. apply (Forall_strip _ text) in Hcjk.
    unfold sanitize.
    destruct (filter_chinese_ok (strip text)) as (over & E & Hover & _).
    rewrite E. simpl. destruct over.
    + specialize (Hover eq_refl).
      rewrite (chinese_chars_no_cjk _ Hcjk) in Hover. lia.
    + unfold strip_and_clean. by rewrite (sub_cjk_id _ Hcjk).
  - intros Hne Hall.
    assert (forall s, Forall (fun c => is_cjk c = true) s ->
                      chinese_chars s = length s /\ total_chars s = length s)
      as Hcount.
    { unfold chinese_chars, total_chars, findall_cjk, replace_char.
      intros s Hs. rewrite length_map.
      induction Hs as [|c s Hc Hs [IH1 IH2]]; [done|]. simpl. rewrite Hc.
      unfold is_cjk in Hc. apply andb_true_iff in Hc as [Hlo _].
      apply N.leb_le in Hlo.
      assert ((c =? SPACE)%N = false /\ (c =? NL)%N = false) as [-> Hnl].
      { unfold SPACE, NL. split; apply N.eqb_neq; lia. }
      simpl. rewrite Hnl. simpl. lia. }
    assert (strip text <> []) as Hstrip.
    { rewrite strip_nil_blank. intros Hb. destruct text as [|c text]; [done|].
      inversion Hall as [|? ? Hc _]; inversion Hb as [|? ? Hs _]; subst.
      unfold is_cjk in Hc. unfold isspace in Hs.
      apply andb_true_iff in Hc as [Hlo _]. apply N.leb_le in Hlo.
      repeat (apply orb_true_iff in Hs as [Hs|Hs]);
        repeat (apply andb_true_iff in Hs as [? Hs]);
        repeat match goal with
               | H : (_ <=? _)%N = true |- _ => apply N.leb_le in H
               | H : (_ =? _)%N = true |- _ => apply N.eqb_eq in H
               end; lia. }
    destruct (Hcount (strip text) (Forall_strip _ _ Hall)) as [Hc Ht].
    assert (0 < length (strip text))%nat as Hpos
      by (destruct (strip text); [done | simpl; lia]).
    unfold sanitize, filter_chinese. rewrite Hc, Ht.
    destruct (Nat.ltb_spec 0 (length (strip text))); [|lia].
    unfold truediv.
    destruct (Z.eqb_spec (Z.of_nat (length (strip text))) 0); [lia|].
    simpl. unfold gt_03. simpl Qnum. simpl Qden. rewrite Z2Pos.id by lia.
    change (2 ^ 55)%Z with 36028797018963968%Z.
    destruct (Z.leb_spec (10808639105689191 * Z.of_nat (length (strip text)))
                (Z.of_nat (length (strip text)) * 36028797018963968)); [|lia].
    reflexivity.
Qed.

(** A text in Latin script and a text in the filtered script. *)
Lemma sanitize_script_extremes_witness :
  sanitize (py "Use a firewall.")
  = Ok (rephrase_if_short (rejoin_unique
          (strip (sub_newlines (strip (py "Use a firewall."))))))
  /\ sanitize [0x4f60; 0x597d]%N = Ok APOLOGY.
Proof.
  split.
  - apply (proj1 (sanitize_script_extremes _)).
    apply (bool_decide_unpack _). by vm_compute.
  - apply (proj2 (sanitize_script_extremes _)); [discriminate|].
    apply (bool_decide_unpack _). by vm_compute.
Defined.

End Repetition.

(** ** The prompt and the budget, for every request *)

Section PromptAndBudget.
Import Py PyFacts.

(** Whenever the history is used ([sessionMemory] true in Python's sense
    and a history that is not empty), the transcript holds the last
    [min 5 n] of its [n] turns in their order, so all of them when there
    are at most 5. *)
Theorem full_prompt_recent_turns (prompt : pystr) (config : gmap pystr json)
    (history : list Turn) (v : json) :
  dict_get config (py "sessionMemory") = Some v ->
  truthy v = true ->
  history <> [] ->
  exists earlier recent : list Turn,
    history = earlier ++ recent
    /\ length recent = Nat.min 5 (length history)
    /\ full_prompt prompt config history
       = join_nl
           ([SYSTEM_PROMPT; TRANSCRIPT_HEADER]
            ++ concat (map render_turn recent)
            ++ [NL :: py "User: " ++ prompt; py "Assistant:"]).
Proof.
  intros Hv Ht Hne.
  exists (take (length history - 5) history), (last_n 5 history).
  split; [unfold last_n; by rewrite take_drop|].
  split; [unfold last_n; rewrite length_drop; lia|].
  unfold full_prompt, context_parts, uses_history. rewrite Hv, Ht. simpl.
  by rewrite bool_decide_eq_false_2.
Qed.

(** Three turns, and a [sessionMemory] that is the number 1. *)
Lemma full_prompt_recent_turns_witness :
  let config : gmap pystr json := {[ py "sessionMemory" := JNum 1 ]} in
  let history := [mkTurn (py "a") (py "b"); mkTurn (py "c") (py "d");
                  mkTurn (py "e") (py "f")] in
  exists earlier recent : list Turn,
    history = earlier ++ recent
    /\ length recent = Nat.min 5 (length history)
    /\ full_prompt (py "next") config history
       = join_nl
           ([SYSTEM_PROMPT; TRANSCRIPT_HEADER]
            ++ concat (map render_turn recent)
            ++ [NL :: py "User: " ++ py "next"; py "Assistant:"]).
Proof.
  intros config history.
  apply (full_prompt_recent_turns (py "next") config history (JNum 1)).
  - by vm_compute.
  - reflexivity.
  - discriminate.
Defined.

Lemma join_nl_app (a b : list pystr) :
  a <> [] -> b <> [] -> join_nl (a ++ b) = join_nl a ++ NL :: join_nl b.
Proof.
  intros Ha Hb. induction a as [|p a IH]; [done|].
  destruct a as [|q a].
  - simpl. by destruct b.
  - change (join_nl ((p :: q :: a) ++ b))
      with (p ++ NL :: join_nl ((q :: a) ++ b)).
    rewrite IH by done.
    change (join_nl (p :: q :: a)) with (p ++ NL :: join_nl (q :: a)).
    by rewrite <- app_assoc.
Qed.

(** Whatever the config and the history, the prompt starts with the
    system prompt and ends with a blank line, the new message as a
    [User: ] line and the bare [Assistant:] label; without history in use
    there is nothing in between. *)
Theorem full_prompt_frame (prompt : pystr) (config : gmap pystr json)
    (history : list Turn) :
  exists middle : pystr,
    full_prompt prompt config history
    = SYSTEM_PROMPT ++ middle ++ [NL; NL] ++ py "User: " ++ prompt
      ++ NL :: py "Assistant:"
    /\ (uses_history config history = false -> middle = []).
Proof.
  unfold full_prompt, context_parts.
  destruct (uses_history config history).
  - eexists (NL :: join_nl (TRANSCRIPT_HEADER
                              :: concat (map render_turn (last_n 5 history)))).
    split; [|discriminate].
    rewrite (join_nl_app [SYSTEM_PROMPT]) by (done || by destruct (_ :: _)).
    rewrite (join_nl_app (TRANSCRIPT_HEADER :: _)) by done.
    change (join_nl [SYSTEM_PROMPT]) with SYSTEM_PROMPT.
    change (join_nl [NL :: py "User: " ++ prompt; py "Assistant:"])
      with ((NL :: py "User: " ++ prompt) ++ NL :: py "Assistant:").
    cbn [app]. by rewrite <- !app_assoc.
  - exists []. split; [reflexivity | done].
Qed.

Lemma token_limits_values (s : pystr) :
  token_limits !! s = None \/ token_limits !! s = Some 300%Z
  \/ token_limits !! s = Some 600%Z \/ token_limits !! s = Some 1000%Z.
Proof.
  destruct (decide (s = py "short")) as [->|H1]; [by right; left|].
  destruct (decide (s = py "medium")) as [->|H2]; [by right; right; left|].
  destruct (decide (s = py "long")) as [->|H3]; [by right; right; right|].
  left. by apply token_limits_other.
Qed.

Lemma max_tokens_cases (config : gmap pystr json) :
  (exists n, max_tokens config = Ok n
             /\ (n = 300 \/ n = 600 \/ n = 1000)%Z)
  \/ (exists v e, dict_get config (py "responseLength") = Some v
                  /\ hashable v = false
                  /\ max_tokens config = Raise e).
Proof.
  unfold max_tokens, dict_get_default, dict_get.
  destruct (config !! py "responseLength") as [v|] eqn:E; simpl.
  - destruct v; simpl; try (left; eexists; split; [reflexivity|]; lia);
      try (right; eexists _, _; by repeat split).
    left. unfold dict_get_default.
    destruct (token_limits_values s) as [-> | [-> | [-> | ->]]];
      eexists; (split; [reflexivity|]); simpl; lia.
  - left. exists 600%Z. split; [reflexivity | lia].
Qed.

(** The budget is 300, 600 or 1000 and nothing else; the lookup raises
    only on a [responseLength] that is a list or a dict. *)
Theorem max_tokens_range (config : gmap pystr json) :
  (exists n, max_tokens config = Ok n
             /\ (n = 300 \/ n = 600 \/ n = 1000)%Z)
  \/ (exists v e, dict_get config (py "responseLength") = Some v
                  /\ hashable v = false
                  /\ max_tokens config = Raise e).
Proof. exact (max_tokens_cases config). Qed.

End PromptAndBudget.

(** ** The handler, for every request *)

Section HandlerOutcomes.
Import Py PyFacts.

Lemma sanitize_reply_ok (text reply : pystr) :
  sanitize text = Ok reply -> (10 <= length reply)%nat /\ no_cjk reply.
Proof.
  destruct (sanitize_unfold text) as (over & _ & Hs). rewrite Hs.
  intros [= <-]. split; [apply rephrase_if_short_length|].
  apply no_cjk_rephrase_if_short, no_cjk_rejoin_unique.
  destruct over; [apply no_cjk_APOLOGY | apply no_cjk_strip_and_clean].
Qed.

(** The four outcomes of [/api/chat] on a body of the shape the page
    sends, which is what [ChatBody] holds: a string message, a dict config
    and a list of [{user, assistant}] string turns, the handler's [print]
    calls taken to succeed. On such a body the engine is called exactly
    when the answer is 200, once, on the assembled prompt and with a
    budget of 300, 600 or 1000; a 400 or a 500 never reaches it. A body of
    another shape can raise elsewhere (a turn without its [assistant] key,
    a config that is not a dict) and is answered 500 by line 828. *)
Theorem chat_outcomes (model_loaded : bool) (llm : pystr -> Z -> result pystr)
    (data : ChatBody) :
  let message := default [] (body_message data) in
  let config := default ∅ (body_config data) in
  let history := default [] (body_history data) in
  (model_loaded = false
   /\ chat model_loaded llm data
      = ([], mkHttp 500 (Error (py "Model not loaded"))))
  \/ (model_loaded = true /\ message = []
      /\ chat model_loaded llm data = ([], mkHttp 400 (Error (py "No message"))))
  \/ (model_loaded = true /\ message <> []
      /\ exists e, max_tokens config = Raise e
                   /\ chat model_loaded llm data = ([], mkHttp 500 (Error e)))
  \/ (model_loaded = true /\ message <> []
      /\ exists n reply,
           max_tokens config = Ok n
           /\ (n = 300 \/ n = 600 \/ n = 1000)%Z
           /\ chat model_loaded llm data
              = ([mkCall (full_prompt message config history) n],
                 mkHttp 200 reply)).
Proof.
  intros message config history. destruct model_loaded; [|by left].
  right. destruct (decide (message = [])) as [Hm|Hm].
  - left. repeat split; try done. unfold chat. simpl. fold message.
    by rewrite bool_decide_eq_true_2.
  - right. unfold chat, generate_response. simpl. fold message config history.
    rewrite bool_decide_eq_false_2 by done.
    destruct (max_tokens_cases config) as [(n & E & Hn) | (v & e & _ & _ & E)];
      rewrite E.
    + right. repeat split; try done. by eexists _, _.
    + left. repeat split; try done. by eexists.
Qed.

(** A body with a [response] field is only ever sent with status 200,
    after exactly one engine call, and its text has at least 10
    characters, none of them in U+4E00..U+9FFF. *)
Theorem chat_response_well_formed (model_loaded : bool)
    (llm : pystr -> Z -> result pystr) (data : ChatBody) (text : pystr) :
  payload (snd (chat model_loaded llm data)) = Response text ->
  status (snd (chat model_loaded llm data)) = 200%Z
  /\ length (fst (chat model_loaded llm data)) = 1%nat
  /\ (10 <= length text)%nat
  /\ no_cjk text.
Proof.
  unfold chat, generate_response. destruct model_loaded; simpl; [|done].
  destruct (bool_decide _); simpl; [done|].
  destruct (max_tokens _) as [n|e]; simpl; [|done].
  destruct (llm _ n) as [raw|e]; simpl; [|done].
  destruct (sanitize raw) as [reply|e] eqn:E; simpl; [|done].
  intros [= <-]. destruct (sanitize_reply_ok _ _ E). by repeat split.
Qed.

(** An engine that answers in the filtered script: the reply is the
    apology. *)
Lemma chat_response_well_formed_witness :
  let llm : pystr -> Z -> result pystr := fun _ _ => Ok [0x4f60; 0x597d]%N in
  let data := mkChatBody (Some (py "hello")) None None in
  payload (snd (chat true llm data)) = Response APOLOGY
  /\ (status (snd (chat true llm data)) = 200%Z
      /\ length (fst (chat true llm data)) = 1%nat
      /\ (10 <= length APOLOGY)%nat
      /\ no_cjk APOLOGY).
Proof.
  intros llm data.
  assert (payload (snd (chat true llm data)) = Response APOLOGY) as H
    by reflexivity.
  split; [exact H|].
  exact (chat_response_well_formed true llm data APOLOGY H).
Defined.

Lemma chat_response_text (model_loaded : bool)
    (llm : pystr -> Z -> result pystr) (data : ChatBody) (text : pystr) :
  payload (snd (chat model_loaded llm data)) = Response text -> text <> [].
Proof.
  unfold chat, generate_response. destruct model_loaded; simpl; [|done].
  destruct (bool_decide _); simpl; [done|].
  destruct (max_tokens _) as [n|e]; simpl; [|done].
  destruct (llm _ n) as [raw|e]; simpl; [|done].
  destruct (sanitize raw) as [reply|e] eqn:E; simpl; [|done].
  intros [= <-] ->. destruct (sanitize_reply_ok _ _ E) as [Hlen _].
  simpl in Hlen. lia.
Qed.

End HandlerOutcomes.

(** ** Start-up *)

Section StartUp.

Lemma first_existing_Some (exists_ : pystr -> bool) (paths : list pystr)
    (path : pystr) :
  first_existing exists_ paths = Some path ->
  exists before after,
    paths = before ++ path :: after
    /\ Forall (fun p => exists_ p = false) before
    /\ exists_ path = true.
Proof.
  induction paths as [|p paths IH]; simpl; [done|].
  destruct (exists_ p) eqn:Hp.
  - intros [= <-]. exists [], paths. by repeat split.
  - intros H. destruct (IH H) as (before & after & -> & Hb & Hpath).
    exists (p :: before), after. repeat split; try done. by constructor.
Qed.

(** When [load_model] returns [True], the model was loaded from the first
    of the four candidate paths that exists, no later one was looked at in
    its place, and from then on the handler runs on that engine. *)
Theorem load_model_first_existing (env : Env) (g g' : Globals)
    (tried : list pystr) :
  load_model env g = (tried, g', true) ->
  exists (paths before after : list pystr) (model_path : pystr) (llm : Engine),
    possible_paths env = Ok paths
    /\ length paths = 4%nat
    /\ paths = before ++ model_path :: after
    /\ Forall (fun p => path_exists env p = false) before
    /\ path_exists env model_path = true
    /\ Llama env model_path = Ok llm
    /\ tried = [model_path]
    /\ g' = mkGlobals (Some llm) true
    /\ (forall data, serve_chat g' data = chat true llm data).
Proof.
  unfold load_model.
  destruct (possible_paths env) as [paths|e] eqn:Hpaths; [|done].
  destruct (first_existing _ paths) as [model_path|] eqn:Hfirst; [|done].
  destruct (bool_decide (model_path = [])); [done|].
  destruct (Llama env model_path) as [llm|e] eqn:Hllm; [|done].
  intros [= <- <-].
  destruct (first_existing_Some _ _ _ Hfirst) as (before & after & -> & Hb & Hp).
  exists (before ++ model_path :: after), before, after, model_path, llm.
  repeat split; try done.
  unfold possible_paths in Hpaths.
  destruct (executable_dir env); [|done]. destruct (getcwd env); [|done].
  simpl in Hpaths. injection Hpaths as Hpaths. by rewrite <- Hpaths.
Qed.

End StartUp.

Section StartUpOutcomes.

(** A process whose model file lies in the third place looked at, next to
    the executable. *)
Lemma load_model_first_existing_witness :
  let slash (parts : list pystr) : pystr :=
    foldr (fun p acc => if bool_decide (acc = []) then p else p ++ 47%N :: acc)
          [] parts in
  let llm : Engine := fun _ _ => Ok (py "A reply of the engine.") in
  let model_path := py "/opt/r3kon/model/qwen1.5-1.8b-chat-q4_k_m.gguf" in
  let env :=
    mkEnv (py "/tmp/_MEI1") (Ok (py "/opt/r3kon")) (Ok (py "/home/user"))
          slash (fun p => bool_decide (p = model_path)) (fun _ => Ok llm) in
  exists (paths before after : list pystr) (model_path : pystr) (llm : Engine),
    possible_paths env = Ok paths
    /\ length paths = 4%nat
    /\ paths = before ++ model_path :: after
    /\ Forall (fun p => path_exists env p = false) before
    /\ path_exists env model_path = true
    /\ Llama env model_path = Ok llm
    /\ [py "/opt/r3kon/model/qwen1.5-1.8b-chat-q4_k_m.gguf"] = [model_path]
    /\ mkGlobals (Some (fun _ _ => Ok (py "A reply of the engine."))) true
       = mkGlobals (Some llm) true
    /\ (forall data,
          serve_chat
            (mkGlobals (Some (fun _ _ => Ok (py "A reply of the engine."))) true)
            data
          = chat true llm data).
Proof.
  intros slash llm model_path env.
  apply (load_model_first_existing env initial_globals).
  by vm_compute.
Defined.

Lemma load_model_cases (env : Env) (g : Globals) :
  let '(tried, g', ok) := load_model env g in
  (length tried <= 1)%nat
  /\ Forall (fun p => path_exists env p = true) tried
  /\ ((ok = false /\ g' = g)
      \/ (ok = true
          /\ exists model_path llm,
               tried = [model_path]
               /\ Llama env model_path = Ok llm
               /\ g' = mkGlobals (Some llm) true)).
Proof.
  unfold load_model.
  assert (forall g0 : Globals,
            (length (@nil pystr) <= 1)%nat
            /\ Forall (fun p => path_exists env p = true) []
            /\ ((false = false /\ g0 = g0)
                \/ (false = true
                    /\ exists model_path llm,
                         [] = [model_path]
                         /\ Llama env model_path = Ok llm
                         /\ g0 = mkGlobals (Some llm) true))) as Hfail.
  { intros g0. split; [simpl; lia|]. split; [constructor | by left]. }
  destruct (possible_paths env) as [paths|e]; [|apply Hfail].
  destruct (first_existing _ paths) as [model_path|] eqn:Hfirst;
    [|apply Hfail].
  destruct (bool_decide (model_path = [])); [apply Hfail|].
  destruct (first_existing_Some _ _ _ Hfirst) as (_ & _ & _ & _ & Hp).
  destruct (Llama env model_path) as [llm|e] eqn:Hllm.
  - split; [simpl; lia|]. split; [by repeat constructor|].
    right. split; [done|]. by exists model_path, llm.
  - split; [simpl; lia|]. split; [by repeat constructor|]. by left.
Qed.

(** [load_model] calls the constructor at most once, and only on a path
    that exists. Either it returns [False] and leaves both globals as they
    were, or it returns [True] with [model_loaded] set and [llm] bound to
    the engine it built; it never sets the flag without the engine. *)
Theorem load_model_outcomes (env : Env) (g : Globals) :
  let '(tried, g', ok) := load_model env g in
  (length tried <= 1)%nat
  /\ Forall (fun p => path_exists env p = true) tried
  /\ ((ok = false /\ g' = g)
      \/ (ok = true
          /\ exists model_path llm,
               tried = [model_path]
               /\ Llama env model_path = Ok llm
               /\ g' = mkGlobals (Some llm) true)).
Proof. exact (load_model_cases env g). Qed.



End StartUpOutcomes.

(** ** The page's memory and what the server makes of it *)

Section SessionMemory.
Import Py.

Lemma last_n_push {A} (l : list A) (x : A) :
  (let pushed := last_n 8 l ++ [x] in
   if (8 <? length pushed)%nat then drop 1 pushed else pushed)
  = last_n 8 (l ++ [x]).
Proof.
  unfold last_n. simpl. rewrite !length_app, length_drop. simpl.
  destruct (Nat.ltb_spec 8 (length l - (length l - 8) + 1)) as [H|H].
  - rewrite drop_app_le by (rewrite length_drop; lia).
    rewrite drop_drop.
    rewrite drop_app_le by lia. f_equal. f_equal. lia.
  - replace (length l - 8)%nat with 0%nat by lia.
    replace (length l + 1 - 8)%nat with 0%nat by lia. reflexivity.
Qed.

(** With session memory on, after any run of answered messages the page
    holds the last 8 exchanges, oldest first, and never more. *)
Theorem update_memory_last_eight (config : gmap pystr json) (v : json)
    (exchanges : list (pystr * pystr)) :
  config !! py "sessionMemory" = Some v ->
  js_truthy v = true ->
  Forall (fun x => x.2 <> []) exchanges ->
  fold_left (fun memory x => update_memory config memory x.1 (Response x.2))
            exchanges []
  = last_n 8 (map (fun x => mkTurn x.1 x.2) exchanges)
  /\ (length (last_n 8 (map (fun x => mkTurn x.1 x.2) exchanges)) <= 8)%nat.
Proof.
  intros Hv Hjs Hall. split.
  - induction exchanges as [|x exchanges IH] using rev_ind; [reflexivity|].
    apply Forall_app in Hall as [Hall Hx]. inversion Hx as [|? ? Hx' _]; subst.
    rewrite fold_left_app, map_app, (IH Hall). destruct x as [m r].
    cbn [fold_left map fst snd] in *.
    unfold update_memory. rewrite bool_decide_eq_false_2 by done.
    rewrite Hv, Hjs. apply last_n_push.
  - unfold last_n. rewrite length_drop. lia.
Qed.

(** Ten answered messages: the first two are forgotten. *)
Lemma update_memory_last_eight_witness :
  let config : gmap pystr json := {[ py "sessionMemory" := JBool true ]} in
  let exchanges :=
    map (fun n => (py "q" ++ [n], py "a" ++ [n]))
        [48; 49; 50; 51; 52; 53; 54; 55; 56; 57]%N in
  fold_left (fun memory x => update_memory config memory x.1 (Response x.2))
            exchanges []
  = last_n 8 (map (fun x => mkTurn x.1 x.2) exchanges)
  /\ (length (last_n 8 (map (fun x => mkTurn x.1 x.2) exchanges)) <= 8)%nat.
Proof.
  intros config exchanges.
  apply (update_memory_last_eight config (JBool true) exchanges).
  - by vm_compute.
  - reflexivity.
  - repeat constructor; discriminate.
Defined.

Lemma last_n_last_n {A} (l : list A) : last_n 5 (last_n 8 l) = last_n 5 l.
Proof.
  unfold last_n. rewrite length_drop, drop_drop. f_equal. lia.
Qed.

Lemma last_n_nil_iff {A} (l : list A) : last_n 8 l = [] <-> l = [].
Proof.
  unfold last_n. split; [|by intros ->].
  intros H. apply (f_equal length) in H. rewrite length_drop in H.
  simpl in H. destruct l; [done | simpl in H; lia].
Qed.

(** The page forgets all but its last 8 exchanges, and the server reads
    the last 5 only: the answer to a request is the same, engine call
    included, as if the page had sent the whole conversation. *)
Theorem serve_chat_memory_cap (g : Globals) (message : option pystr)
    (config : option (gmap pystr json)) (conversation : list Turn) :
  serve_chat g (mkChatBody message config (Some (last_n 8 conversation)))
  = serve_chat g (mkChatBody message config (Some conversation)).
Proof.
  assert (forall prompt cfg,
            full_prompt prompt cfg (last_n 8 conversation)
            = full_prompt prompt cfg conversation) as Hprompt.
  { intros prompt cfg. unfold full_prompt, context_parts, uses_history.
    rewrite last_n_last_n.
    destruct (decide (conversation = [])) as [->|Hne]; [reflexivity|].
    rewrite (bool_decide_eq_false_2 (conversation = [])) by done.
    rewrite (bool_decide_eq_false_2 (last_n 8 conversation = []));
      [reflexivity|]. by rewrite last_n_nil_iff. }
  unfold serve_chat, chat, generate_response. simpl.
  by rewrite Hprompt.
Qed.

(** What one [sendMessage] does to the memory, case by case. With an
    empty input or a page that is not ready no request is made and the
    memory stays. Otherwise it stays when the answer is an error body, and
    when [config.sessionMemory] is absent or false in JavaScript's sense.
    When the answer is a response body and the setting is on, the message
    and the response are appended as a turn, and the oldest turn goes if 8
    or more were held. So a memory of at most 8 turns stays at most 8. *)
Theorem sendMessage_memory (g : Globals) (modelLoaded : bool)
    (config : gmap pystr json) (sessionMemory : list Turn) (message : pystr) :
  let data :=
    payload (snd (serve_chat g (mkChatBody (Some message) (Some config)
                                           (Some sessionMemory)))) in
  let memory_on :=
    match config !! py "sessionMemory" with
    | Some v => js_truthy v
    | None => false
    end in
  let memory' := snd (sendMessage g modelLoaded config sessionMemory message) in
  (message = [] \/ modelLoaded = false ->
   sendMessage g modelLoaded config sessionMemory message = ([], sessionMemory))
  /\ (message <> [] -> modelLoaded = true ->
      (forall e, data = Error e -> memory' = sessionMemory)
      /\ (memory_on = false -> memory' = sessionMemory)
      /\ (forall text,
            data = Response text -> memory_on = true ->
            memory' = last_n (Nat.max 8 (length sessionMemory))
                             (sessionMemory ++ [mkTurn message text])))
  /\ ((length sessionMemory <= 8)%nat -> (length memory' <= 8)%nat).
Proof.
  intros data memory_on memory'.
  split; [|split].
  - unfold sendMessage. intros [-> | ->]; [reflexivity|].
    by rewrite orb_true_r.
  - intros Hm ->. subst memory'. unfold sendMessage.
    rewrite (bool_decide_eq_false_2 _ Hm). simpl.
    pose proof (chat_response_text (g_model_loaded g) (engine_of g)
                  (mkChatBody (Some message) (Some config) (Some sessionMemory)))
      as Htext.
    fold (serve_chat g (mkChatBody (Some message) (Some config)
                                   (Some sessionMemory))) in Htext.
    subst data memory_on.
    destruct (serve_chat g _) as [calls [st reply]]. simpl in *.
    unfold update_memory. split; [|split].
    + by intros e ->.
    + intros Hoff. destruct reply as [text|e]; [|done].
      destruct (bool_decide (text = [])); [done|].
      destruct (config !! py "sessionMemory") as [v|]; [|done]. by rewrite Hoff.
    + intros text -> Hon. specialize (Htext text eq_refl).
      rewrite (bool_decide_eq_false_2 _ Htext).
      destruct (config !! py "sessionMemory") as [v|]; [|done]. rewrite Hon.
      simpl. unfold last_n. rewrite length_app. simpl.
      destruct (Nat.ltb_spec 8 (length sessionMemory + 1)) as [H|H].
      * f_equal. lia.
      * by replace (length sessionMemory + 1 - _)%nat with 0%nat by lia.
  - subst memory'. unfold sendMessage.
    destruct (bool_decide (message = []) || negb modelLoaded); [done|].
    destruct (serve_chat g _) as [calls [st reply]]. simpl.
    unfold update_memory. intros Hlen.
    destruct reply as [text|e]; [|done].
    destruct (bool_decide (text = [])); [done|].
    destruct (config !! py "sessionMemory") as [v|]; [|done].
    destruct (js_truthy v); [|done].
    simpl. rewrite length_app. simpl.
    destruct (Nat.ltb_spec 8 (length sessionMemory + 1)) as [H|H].
    + rewrite length_drop, length_app. simpl. lia.
    + rewrite length_app. simpl. lia.
Qed.

(** A full memory, the setting on and an engine that answers: the new
    turn is appended and the oldest one goes. *)
Lemma sendMessage_memory_witness :
  let g := mkGlobals (Some (fun _ _ => Ok (py "A reply of the engine."))) true in
  let config : gmap pystr json := {[ py "sessionMemory" := JBool true ]} in
  let memory :=
    map (fun n => mkTurn (py "q" ++ [n]) (py "a" ++ [n]))
        [48; 49; 50; 51; 52; 53; 54; 55]%N in
  snd (sendMessage g true config memory (py "next"))
  = last_n (Nat.max 8 (length memory))
           (memory ++ [mkTurn (py "next") (py "A reply of the engine.")])
  /\ (length (snd (sendMessage g true config memory (py "next"))) <= 8)%nat.
Proof.
  intros g config memory.
  pose proof (sendMessage_memory g true config memory (py "next"))
    as (_ & Hcases & Hbound).
  split.
  - apply Hcases; [discriminate | reflexivity | reflexivity | by vm_compute].
  - apply Hbound. vm_compute. lia.
Defined.

End SessionMemory.
